(** * Endpoint resolution of [src/services/TMDB.js]

    The module reads one credential from the environment and registers
    seven [query] callbacks, each of which builds a request string with a
    template literal.  The callbacks are embedded here as functions over
    JavaScript primitive values; the module-level constant [tmdbApiKey] is
    the only state they see. *)

From Stdlib Require Import ZArith Ascii String List Bool Lia.
From stdpp Require Import base gmap strings pretty.

Local Open Scope Z_scope.

(** ** JavaScript primitive values *)

(** The values a callback can be handed and interpolate.  A number is
    either an integer, [NaN] or a signed infinity; [JNum z] stands for the
    double [z] when [z] is a safe integer ([safe_integer] below), where
    [Number::toString] prints plain decimal digits, and the statements
    that depend on the digits of a number carry that bound.  Objects,
    symbols and BigInts, whose conversion to text can run caller code or
    throw, are not covered. *)
Inductive JsVal : Type :=
| JUndefined
| JNull
| JBool (b : bool)
| JNum (z : Z)
| JNaN
| JInfinity (negative : bool)
| JStr (s : string).

(** [ToBoolean]: what an [if (x)] or [x && ...] tests. *)
Definition ToBoolean (v : JsVal) : bool :=
  match v with
  | JUndefined | JNull | JNaN => false
  | JBool b => b
  | JNum z => negb (z =? 0)
  | JInfinity _ => true
  | JStr s => negb (String.eqb s "")
  end.

(** [typeof x]. *)
Definition typeof (v : JsVal) : string :=
  match v with
  | JUndefined => "undefined"
  | JNull => "object"
  | JBool _ => "boolean"
  | JNum _ | JNaN | JInfinity _ => "number"
  | JStr _ => "string"
  end.

(** [ToString]: what a template literal substitutes for [${x}]. *)
Definition ToString (v : JsVal) : string :=
  match v with
  | JUndefined => "undefined"
  | JNull => "null"
  | JBool true => "true"
  | JBool false => "false"
  | JNum z => pretty z
  | JNaN => "NaN"
  | JInfinity false => "Infinity"
  | JInfinity true => "-Infinity"
  | JStr s => s
  end.

(** ** Module state and the monad the callbacks run in *)

(** [process.env]: a finite map from variable names to their text. *)
Abbreviation Env := (gmap string string).

(** The bindings of the module scope that the callbacks close over. *)
Record ModuleState : Type := { tmdbApiKey : JsVal }.

Inductive Exc (A : Type) : Type :=
| Ok (a : A)
| Throw (msg : string).
Arguments Ok {A} a.
Arguments Throw {A} msg.

(** [const tmdbApiKey = process.env.REACT_APP_TMDB_KEY;] followed by the
    [createApi] registration.  A missing property reads as [undefined];
    no statement of the module body throws. *)
Definition loadModule (env : Env) : Exc ModuleState :=
  Ok {| tmdbApiKey :=
          match env !! "REACT_APP_TMDB_KEY" with
          | Some s => JStr s
          | None => JUndefined
          end |}.

Definition M (A : Type) : Type := ModuleState -> A * ModuleState.

#[global] Instance M_ret : MRet M := fun A a st => (a, st).

#[global] Instance M_bind : MBind M :=
  fun A B k m st => let (a, st') := m st in k a st'.

(** Reading the identifier [tmdbApiKey]. *)
Definition read_tmdbApiKey : M JsVal := fun st => (tmdbApiKey st, st).

(** ** The seven [query] callbacks *)

(** The argument objects, as the callbacks destructure them; a property
    the caller left out reads as [JUndefined]. *)
Record MoviesArg : Type :=
  { genreIdOrCategoryName : JsVal; page : JsVal; searchQuery : JsVal }.

Record RecommendationsArg : Type := { movieId : JsVal; list_ : JsVal }.

Record ActorMoviesArg : Type := { am_id : JsVal; am_page : JsVal }.

Record ListArg : Type :=
  { listName : JsVal; accountId : JsVal; sessionId : JsVal; l_page : JsVal }.

Definition getGenres : M string :=
  key ← read_tmdbApiKey;
  mret ("/genre/movie/list?api_key=" +:+ ToString key).

Definition getMovies (a : MoviesArg) : M string :=
  if ToBoolean (searchQuery a) then
    key ← read_tmdbApiKey;
    mret ("/search/movie?query=" +:+ ToString (searchQuery a) +:+ "&page="
           +:+ ToString (page a) +:+ "&api_key=" +:+ ToString key)
  else if ToBoolean (genreIdOrCategoryName a)
          && String.eqb (typeof (genreIdOrCategoryName a)) "string" then
    key ← read_tmdbApiKey;
    mret ("/movie/" +:+ ToString (genreIdOrCategoryName a) +:+ "?page="
           +:+ ToString (page a) +:+ "&api_key=" +:+ ToString key)
  else if ToBoolean (genreIdOrCategoryName a)
          && String.eqb (typeof (genreIdOrCategoryName a)) "number" then
    key ← read_tmdbApiKey;
    mret ("discover/movie?with_genres=" +:+ ToString (genreIdOrCategoryName a)
           +:+ "&page=" +:+ ToString (page a) +:+ "&api_key=" +:+ ToString key)
  else
    key ← read_tmdbApiKey;
    mret ("/movie/popular?page=" +:+ ToString (page a) +:+ "&api_key="
           +:+ ToString key).

Definition getMovie (id : JsVal) : M string :=
  key ← read_tmdbApiKey;
  mret ("/movie/" +:+ ToString id +:+ "?append_to_response=videos,credits&api_key="
         +:+ ToString key).

Definition getRecommendations (a : RecommendationsArg) : M string :=
  key ← read_tmdbApiKey;
  mret ("/movie/" +:+ ToString (movieId a) +:+ "/" +:+ ToString (list_ a)
         +:+ "?api_key=" +:+ ToString key).

Definition getActorDetails (id : JsVal) : M string :=
  key ← read_tmdbApiKey;
  mret ("person/" +:+ ToString id +:+ "?api_key=" +:+ ToString key).

Definition getMoviesByActorId (a : ActorMoviesArg) : M string :=
  key ← read_tmdbApiKey;
  mret ("/discover/movie?with_cast=" +:+ ToString (am_id a) +:+ "&page="
         +:+ ToString (am_page a) +:+ "&api_key=" +:+ ToString key).

Definition getList (a : ListArg) : M string :=
  key ← read_tmdbApiKey;
  mret ("/account/" +:+ ToString (accountId a) +:+ "/" +:+ ToString (listName a)
         +:+ "?api_key=" +:+ ToString key +:+ "&session_id="
         +:+ ToString (sessionId a) +:+ "&page=" +:+ ToString (l_page a)).

(** The return statement of [getMovies] that a call reaches. *)
Inductive Branch : Type := BySearch | ByCategory | ByGenre | ByDefault.

Definition getMovies_branch (a : MoviesArg) : Branch :=
  if ToBoolean (searchQuery a) then BySearch
  else if ToBoolean (genreIdOrCategoryName a)
          && String.eqb (typeof (genreIdOrCategoryName a)) "string" then ByCategory
  else if ToBoolean (genreIdOrCategoryName a)
          && String.eqb (typeof (genreIdOrCategoryName a)) "number" then ByGenre
  else ByDefault.

(** One call of one of the registered endpoints. *)
Inductive Op : Type :=
| OpGetGenres
| OpGetMovies (a : MoviesArg)
| OpGetMovie (id : JsVal)
| OpGetRecommendations (a : RecommendationsArg)
| OpGetActorDetails (id : JsVal)
| OpGetMoviesByActorId (a : ActorMoviesArg)
| OpGetList (a : ListArg).

Definition resolve (op : Op) : M string :=
  match op with
  | OpGetGenres => getGenres
  | OpGetMovies a => getMovies a
  | OpGetMovie id => getMovie id
  | OpGetRecommendations a => getRecommendations a
  | OpGetActorDetails id => getActorDetails id
  | OpGetMoviesByActorId a => getMoviesByActorId a
  | OpGetList a => getList a
  end.

(** ** Request targets and their text *)

(** A request target: a resource path and its query parameters in order. *)
Record Target : Type := { path : string; params : list (string * string) }.

Definition render_param (p : string * string) : string :=
  p.1 +:+ "=" +:+ p.2.

Fixpoint join (sep : string) (l : list string) : string :=
  match l with
  | [] => ""
  | [x] => x
  | x :: l' => x +:+ sep +:+ join sep l'
  end.

(** [path?name=value&name=value...] *)
Definition serialize (t : Target) : string :=
  path t +:+ "?" +:+ join "&" (map render_param (params t)).

(** The template of each return statement of [getMovies], cut at its
    delimiters. *)
Definition branch_target (key : JsVal) (a : MoviesArg) (b : Branch) : Target :=
  match b with
  | BySearch =>
      {| path := "/search/movie";
         params := [("query", ToString (searchQuery a));
                    ("page", ToString (page a));
                    ("api_key", ToString key)] |}
  | ByCategory =>
      {| path := "/movie/" +:+ ToString (genreIdOrCategoryName a);
         params := [("page", ToString (page a)); ("api_key", ToString key)] |}
  | ByGenre =>
      {| path := "discover/movie";
         params := [("with_genres", ToString (genreIdOrCategoryName a));
                    ("page", ToString (page a));
                    ("api_key", ToString key)] |}
  | ByDefault =>
      {| path := "/movie/popular";
         params := [("page", ToString (page a)); ("api_key", ToString key)] |}
  end.

(** The template literal of every endpoint, cut at its delimiters. *)
Definition target_of (key : JsVal) (op : Op) : Target :=
  match op with
  | OpGetGenres =>
      {| path := "/genre/movie/list"; params := [("api_key", ToString key)] |}
  | OpGetMovies a => branch_target key a (getMovies_branch a)
  | OpGetMovie id =>
      {| path := "/movie/" +:+ ToString id;
         params := [("append_to_response", "videos,credits");
                    ("api_key", ToString key)] |}
  | OpGetRecommendations a =>
      {| path := "/movie/" +:+ ToString (movieId a) +:+ "/" +:+ ToString (list_ a);
         params := [("api_key", ToString key)] |}
  | OpGetActorDetails id =>
      {| path := "person/" +:+ ToString id;
         params := [("api_key", ToString key)] |}
  | OpGetMoviesByActorId a =>
      {| path := "/discover/movie";
         params := [("with_cast", ToString (am_id a));
                    ("page", ToString (am_page a));
                    ("api_key", ToString key)] |}
  | OpGetList a =>
      {| path := "/account/" +:+ ToString (accountId a) +:+ "/"
                 +:+ ToString (listName a);
         params := [("api_key", ToString key);
                    ("session_id", ToString (sessionId a));
                    ("page", ToString (l_page a))] |}
  end.

(** ** Reading a request string back *)

(** How the receiving side cuts a request string: the fragment starts at
    the first [#], the query at the first [?]; the query is split at every
    [&], empty pieces are dropped, and each piece is split at its first
    [=]. *)

Fixpoint has_char (c : ascii) (s : string) : bool :=
  match s with
  | EmptyString => false
  | String x s' => Ascii.eqb x c || has_char c s'
  end.

Fixpoint before_char (c : ascii) (s : string) : string :=
  match s with
  | EmptyString => EmptyString
  | String x s' => if Ascii.eqb x c then EmptyString else String x (before_char c s')
  end.

Fixpoint after_char (c : ascii) (s : string) : option string :=
  match s with
  | EmptyString => None
  | String x s' => if Ascii.eqb x c then Some s' else after_char c s'
  end.

Fixpoint split_on (c : ascii) (s : string) : list string :=
  match s with
  | EmptyString => [EmptyString]
  | String x s' =>
      if Ascii.eqb x c then EmptyString :: split_on c s'
      else match split_on c s' with
           | [] => [String x EmptyString]
           | h :: t => String x h :: t
           end
  end.

Definition nonempty (s : string) : bool :=
  match s with EmptyString => false | String _ _ => true end.

Definition parse_param (p : string) : string * string :=
  (before_char "=" p, default EmptyString (after_char "=" p)).

Definition url_path (url : string) : string :=
  before_char "?" (before_char "#" url).

Definition query_params (url : string) : list (string * string) :=
  match after_char "?" (before_char "#" url) with
  | None => []
  | Some q => map parse_param (List.filter nonempty (split_on "&" q))
  end.

Definition parse_url (url : string) : Target :=
  {| path := url_path url; params := query_params url |}.

(** The values of the parameters called [name], in order. *)
Definition param_values (name : string) (ps : list (string * string)) : list string :=
  map snd (List.filter (fun p => String.eqb p.1 name) ps).

(** A target whose pieces cannot be mistaken for delimiters: no [?] or [#]
    in the path, no [&], [#] or [=] in a parameter name, no [&] or [#] in
    a parameter value. *)
Definition clean_path (s : string) : bool :=
  negb (has_char "?" s) && negb (has_char "#" s).

Definition clean_name (s : string) : bool :=
  negb (has_char "&" s) && negb (has_char "#" s) && negb (has_char "=" s).

Definition clean_value (s : string) : bool :=
  negb (has_char "&" s) && negb (has_char "#" s).

Definition well_delimited (t : Target) : bool :=
  clean_path (path t)
  && forallb (fun p => clean_name p.1 && clean_value p.2) (params t).

(** ** Running endpoint calls one after another *)

Fixpoint run_all (ops : list Op) : M (list string) :=
  match ops with
  | [] => mret []
  | op :: rest => u ← resolve op; us ← run_all rest; mret (u :: us)
  end.

(** ** Inputs that cannot be mistaken for delimiters *)

(** The four characters that cut a request string. *)
Definition delimiter (c : ascii) : bool :=
  Ascii.eqb c "?" || Ascii.eqb c "#" || Ascii.eqb c "&" || Ascii.eqb c "=".

Definition is_text (v : JsVal) : bool :=
  match v with JStr _ => true | _ => false end.

(** A value whose text can stand in a path, respectively in a parameter
    value, without cutting the request string. *)
Definition safe_in_path (v : JsVal) : bool := clean_path (ToString v).

Definition safe_in_value (v : JsVal) : bool := clean_value (ToString v).

(** Every input that the call interpolates is safe where it lands. *)
Definition inputs_safe (op : Op) : bool :=
  match op with
  | OpGetGenres => true
  | OpGetMovies a =>
      match getMovies_branch a with
      | BySearch => safe_in_value (searchQuery a) && safe_in_value (page a)
      | ByCategory =>
          safe_in_path (genreIdOrCategoryName a) && safe_in_value (page a)
      | ByGenre =>
          safe_in_value (genreIdOrCategoryName a) && safe_in_value (page a)
      | ByDefault => safe_in_value (page a)
      end
  | OpGetMovie id => safe_in_path id
  | OpGetRecommendations a =>
      safe_in_path (movieId a) && safe_in_path (list_ a)
  | OpGetActorDetails id => safe_in_path id
  | OpGetMoviesByActorId a =>
      safe_in_value (am_id a) && safe_in_value (am_page a)
  | OpGetList a =>
      safe_in_path (accountId a) && safe_in_path (listName a)
      && safe_in_value (sessionId a) && safe_in_value (l_page a)
  end.

(** Whether a request string is written from the root of the base URL. *)
Definition starts_with_slash (s : string) : bool :=
  match s with
  | String c _ => Ascii.eqb c "/"
  | EmptyString => false
  end.

(** ** Integers that a number holds exactly *)

(** [Number.MAX_SAFE_INTEGER], 2^53 - 1. *)
Definition MAX_SAFE_INTEGER : Z := 9007199254740991.

(** [Number.isSafeInteger]: the integers a double holds exactly and
    prints digit by digit. *)
Definition safe_integer (z : Z) : bool := Z.abs z <=? MAX_SAFE_INTEGER.

(** ** From the returned string to the request *)

(** [baseQuery: fetchBaseQuery({ baseUrl: 'https://api.themoviedb.org/3' })] *)
Definition baseUrl : string := "https://api.themoviedb.org/3".

Fixpoint starts_with (p s : string) : bool :=
  match p, s with
  | EmptyString, _ => true
  | String _ _, EmptyString => false
  | String a p', String b s' => Ascii.eqb a b && starts_with p' s'
  end.

Fixpoint contains_sub (p s : string) : bool :=
  starts_with p s
  || match s with
     | EmptyString => false
     | String _ s' => contains_sub p s'
     end.

Fixpoint ends_with_slash (s : string) : bool :=
  match s with
  | EmptyString => false
  | String c EmptyString => Ascii.eqb c "/"
  | String _ s' => ends_with_slash s'
  end.

(** The join that [fetchBaseQuery] applies to [baseUrl] and the string a
    [query] callback returns, as the data-fetching library defines it:
    a string with [//] at its start or after a colon is taken as an
    absolute URL and used alone; otherwise one trailing slash of the base
    and one leading slash of the string are dropped and the two are put
    together, with a slash between them unless the string starts its
    query at once. *)
Definition isAbsoluteUrl (url : string) : bool :=
  starts_with "//" url || contains_sub "://" url.

Fixpoint withoutTrailingSlash (s : string) : string :=
  match s with
  | EmptyString => EmptyString
  | String c EmptyString => if Ascii.eqb c "/" then EmptyString else s
  | String c s' => String c (withoutTrailingSlash s')
  end.

Definition withoutLeadingSlash (s : string) : string :=
  match s with
  | String c s' => if Ascii.eqb c "/" then s' else s
  | EmptyString => EmptyString
  end.

Definition joinUrls (base url : string) : string :=
  if negb (nonempty base) then url
  else if negb (nonempty url) then base
  else if isAbsoluteUrl url then url
  else
    let delimiter :=
      if ends_with_slash base || negb (starts_with "?" url) then "/" else "" in
    withoutTrailingSlash base +:+ delimiter +:+ withoutLeadingSlash url.

(** * Properties *)

(** ** Strings and delimiters *)

#[local] Arguments String.append !_ _ / : simpl nomatch.

Section Delimiters.
Variable c : ascii.

Lemma append_assoc (a b d : string) : (a +:+ b) +:+ d = a +:+ b +:+ d.
Proof. induction a as [|x a IH]; simpl; [reflexivity | now rewrite IH]. Qed.

Lemma has_char_app (a b : string) :
  has_char c (a +:+ b) = has_char c a || has_char c b.
Proof.
  induction a as [|x a IH]; simpl; [reflexivity|].
  rewrite IH. apply orb_assoc.
Qed.

Lemma before_char_none (s : string) :
  has_char c s = false -> before_char c s = s.
Proof.
  induction s as [|x s IH]; simpl; [reflexivity|].
  intros [Hx Hs]%orb_false_iff. rewrite Hx. f_equal. auto.
Qed.

Lemma before_char_app (a b : string) :
  has_char c a = false -> before_char c (a +:+ String c b) = a.
Proof.
  induction a as [|x a IH]; simpl.
  - intros _. now rewrite Ascii.eqb_refl.
  - intros [Hx Hs]%orb_false_iff. rewrite Hx. f_equal. auto.
Qed.

Lemma after_char_app (a b : string) :
  has_char c a = false -> after_char c (a +:+ String c b) = Some b.
Proof.
  induction a as [|x a IH]; simpl.
  - intros _. now rewrite Ascii.eqb_refl.
  - intros [Hx Hs]%orb_false_iff. rewrite Hx. auto.
Qed.

Lemma split_on_none (s : string) :
  has_char c s = false -> split_on c s = [s].
Proof.
  induction s as [|x s IH]; simpl; [reflexivity|].
  intros [Hx Hs]%orb_false_iff. rewrite Hx, (IH Hs). reflexivity.
Qed.

Lemma split_on_app (a b : string) :
  has_char c a = false ->
  split_on c (a +:+ String c b) = a :: split_on c b.
Proof.
  induction a as [|x a IH]; simpl.
  - intros _. now rewrite Ascii.eqb_refl.
  - intros [Hx Hs]%orb_false_iff. rewrite Hx, (IH Hs). reflexivity.
Qed.

Lemma split_on_join (l : list string) :
  forallb (fun s => negb (has_char c s)) l = true ->
  l <> [] ->
  split_on c (join (String c EmptyString) l) = l.
Proof.
  induction l as [|x l IH]; [congruence|].
  intros [Hx Hl]%andb_true_iff _. apply negb_true_iff in Hx.
  destruct l as [|y l].
  - simpl. now apply split_on_none.
  - change (join (String c EmptyString) (x :: y :: l))
      with (x +:+ String c (join (String c EmptyString) (y :: l))).
    rewrite split_on_app by assumption.
    f_equal. now apply IH.
Qed.
End Delimiters.

Lemma parse_param_render (k v : string) :
  has_char "=" k = false -> parse_param (render_param (k, v)) = (k, v).
Proof.
  intros Hk. unfold parse_param, render_param. simpl.
  now rewrite before_char_app, after_char_app.
Qed.

Lemma render_param_nonempty (p : string * string) :
  nonempty (render_param p) = true.
Proof. destruct p as [[|x k] v]; reflexivity. Qed.

Lemma has_char_render_param (c : ascii) (p : string * string) :
  has_char c (render_param p)
  = has_char c p.1 || (Ascii.eqb "=" c || has_char c p.2).
Proof. unfold render_param. now rewrite has_char_app. Qed.

Lemma has_char_join (c : ascii) (sep : ascii) (l : list string) :
  Ascii.eqb sep c = false ->
  forallb (fun s => negb (has_char c s)) l = true ->
  has_char c (join (String sep EmptyString) l) = false.
Proof.
  intros Hsep. induction l as [|x l IH]; [reflexivity|].
  intros [Hx Hl]%andb_true_iff. apply negb_true_iff in Hx.
  destruct l as [|y l]; [exact Hx|].
  change (join (String sep EmptyString) (x :: y :: l))
    with (x +:+ String sep (join (String sep EmptyString) (y :: l))).
  rewrite has_char_app, Hx. simpl. rewrite Hsep. now apply IH.
Qed.

Lemma filter_nonempty_pieces (l : list (string * string)) :
  List.filter nonempty (map render_param l) = map render_param l.
Proof.
  induction l as [|p l IH]; simpl; [reflexivity|].
  now rewrite render_param_nonempty, IH.
Qed.

Lemma map_parse_render (l : list (string * string)) :
  forallb (fun p => clean_name p.1 && clean_value p.2) l = true ->
  map parse_param (map render_param l) = l.
Proof.
  induction l as [|[k v] l IH]; simpl; [reflexivity|].
  intros [[Hk Hv]%andb_true_iff Hl]%andb_true_iff.
  unfold clean_name in Hk. apply andb_true_iff in Hk as [_ Hk].
  apply negb_true_iff in Hk.
  now rewrite parse_param_render, IH.
Qed.

Lemma pieces_free_of (c : ascii) (l : list (string * string)) :
  Ascii.eqb "=" c = false ->
  forallb (fun p => negb (has_char c p.1) && negb (has_char c p.2)) l = true ->
  forallb (fun s => negb (has_char c s)) (map render_param l) = true.
Proof.
  intros Hc. induction l as [|p l IH]; simpl; [reflexivity|].
  intros [[H1 H2]%andb_true_iff Hl]%andb_true_iff.
  apply negb_true_iff in H1, H2.
  rewrite has_char_render_param, H1, H2, Hc. simpl. auto.
Qed.

Lemma clean_params_amp (l : list (string * string)) :
  forallb (fun p => clean_name p.1 && clean_value p.2) l = true ->
  forallb (fun p => negb (has_char "&" p.1) && negb (has_char "&" p.2)) l = true.
Proof.
  induction l as [|p l IH]; simpl; [reflexivity|].
  intros [[Hk Hv]%andb_true_iff Hl]%andb_true_iff.
  unfold clean_name, clean_value in *.
  repeat (apply andb_true_iff in Hk as [Hk ?]).
  apply andb_true_iff in Hv as [Hv ?].
  rewrite Hk, Hv. simpl. auto.
Qed.

Lemma clean_params_hash (l : list (string * string)) :
  forallb (fun p => clean_name p.1 && clean_value p.2) l = true ->
  forallb (fun p => negb (has_char "#" p.1) && negb (has_char "#" p.2)) l = true.
Proof.
  induction l as [|p l IH]; simpl; [reflexivity|].
  intros [[Hk Hv]%andb_true_iff Hl]%andb_true_iff.
  unfold clean_name, clean_value in *.
  apply andb_true_iff in Hk as [Hk _]. apply andb_true_iff in Hk as [_ Hk].
  apply andb_true_iff in Hv as [_ Hv].
  rewrite Hk, Hv. simpl. auto.
Qed.

(** The query of a serialized target, read back. *)
Lemma query_roundtrip (l : list (string * string)) :
  forallb (fun p => clean_name p.1 && clean_value p.2) l = true ->
  map parse_param
      (List.filter nonempty (split_on "&" (join "&" (map render_param l)))) = l.
Proof.
  intros Hl. destruct l as [|p l]; [reflexivity|].
  rewrite split_on_join.
  - rewrite filter_nonempty_pieces. now apply map_parse_render.
  - apply pieces_free_of; [reflexivity|]. now apply clean_params_amp.
  - discriminate.
Qed.

(** Reading back the text of a well delimited target gives the target. *)
Lemma parse_serialize (t : Target) :
  well_delimited t = true -> parse_url (serialize t) = t.
Proof.
  destruct t as [p l]. unfold well_delimited, clean_path. simpl.
  intros [[Hq Hh]%andb_true_iff Hl]%andb_true_iff.
  apply negb_true_iff in Hq, Hh.
  unfold parse_url, url_path, query_params, serialize; simpl path; simpl params.
  change (p +:+ "?" +:+ join "&" (map render_param l))
    with (p +:+ String "?" (join "&" (map render_param l))).
  assert (Hfrag : has_char "#" (p +:+ String "?" (join "&" (map render_param l)))
                  = false).
  { rewrite has_char_app, Hh. simpl.
    apply has_char_join; [reflexivity|].
    apply pieces_free_of; [reflexivity|]. now apply clean_params_hash. }
  rewrite (before_char_none _ _ Hfrag).
  rewrite before_char_app, after_char_app by assumption.
  now rewrite query_roundtrip.
Qed.

(** ** The callbacks, run *)

Ltac run_callback :=
  cbv [resolve getGenres getMovies getMovie getRecommendations getActorDetails
       getMoviesByActorId getList mbind mret M_bind M_ret read_tmdbApiKey].

Ltac flatten_text :=
  cbv [serialize branch_target target_of path params map join render_param
       fst snd];
  simpl; rewrite ?append_assoc; simpl.

Lemma nonempty_text_truthy (s : string) : s <> "" -> ToBoolean (JStr s) = true.
Proof. destruct s; [congruence | reflexivity]. Qed.

Lemma nonzero_number_truthy (n : Z) : n <> 0 -> ToBoolean (JNum n) = true.
Proof. intros Hn. simpl. now apply negb_true_iff, Z.eqb_neq. Qed.

(** [getMovies] returns the template of the return statement that
    [getMovies_branch] names, and leaves the module state alone. *)
Lemma getMovies_by_branch (a : MoviesArg) (st : ModuleState) :
  getMovies a st
  = (serialize (branch_target (tmdbApiKey st) a (getMovies_branch a)), st).
Proof.
  unfold getMovies, getMovies_branch.
  destruct (ToBoolean (searchQuery a));
    [|destruct (ToBoolean (genreIdOrCategoryName a));
      [destruct (String.eqb (typeof (genreIdOrCategoryName a)) "string");
       [|destruct (String.eqb (typeof (genreIdOrCategoryName a)) "number")]|]];
    run_callback; flatten_text; reflexivity.
Qed.

(** Every callback returns the text of its template and the state it was
    given. *)
Lemma resolve_serialize (op : Op) (st : ModuleState) :
  resolve op st = (serialize (target_of (tmdbApiKey st) op), st).
Proof.
  destruct op; try apply getMovies_by_branch;
    run_callback; flatten_text; reflexivity.
Qed.

Lemma run_all_pure (ops : list Op) (st : ModuleState) :
  run_all ops st = (map (fun op => fst (resolve op st)) ops, st).
Proof.
  induction ops as [|op ops IH]; [reflexivity|].
  cbn [run_all map]. unfold mbind, M_bind at 1.
  rewrite (resolve_serialize op st). unfold mbind, M_bind.
  rewrite IH. reflexivity.
Qed.

(** The template of every endpoint names [api_key] once, with the text of
    the credential. *)
Lemma target_api_key (key : JsVal) (op : Op) :
  param_values "api_key" (params (target_of key op)) = [ToString key].
Proof.
  destruct op; try reflexivity.
  simpl. destruct (getMovies_branch a); reflexivity.
Qed.

Example getMovies_search_example :
  fst (getMovies {| genreIdOrCategoryName := JNum 28; page := JNum 3;
                    searchQuery := JStr "alien" |} {| tmdbApiKey := JStr "k" |})
  = "/search/movie?query=alien&page=3&api_key=k".
Proof. vm_compute. reflexivity. Qed.

Example parse_genres_example :
  parse_url "/genre/movie/list?api_key=k"
  = {| path := "/genre/movie/list"; params := [("api_key", "k")] |}.
Proof. reflexivity. Qed.

(** ** Selection among the branches of [getMovies] *)

(** C1. Precedence of the selectors of [getMovies]: a non-empty search
    text selects the search return statement (path [/search/movie] with
    [query] and [page]), whatever [genreIdOrCategoryName] holds; without a
    search text a non-empty category text selects the category statement,
    a non-zero genre number the genre statement, and anything else the
    popular default; exactly one return statement is reached by a call,
    and the call returns the text of that statement. *)
Theorem getMovies_precedence (a : MoviesArg) (st : ModuleState) :
  (forall s : string, searchQuery a = JStr s -> s <> "" ->
     getMovies_branch a = BySearch /\
     getMovies a st
     = (serialize {| path := "/search/movie";
                     params := [("query", s);
                                ("page", ToString (page a));
                                ("api_key", ToString (tmdbApiKey st))] |}, st))
  /\ (ToBoolean (searchQuery a) = false ->
      (forall c : string, genreIdOrCategoryName a = JStr c -> c <> "" ->
         getMovies_branch a = ByCategory)
      /\ (forall n : Z, genreIdOrCategoryName a = JNum n -> n <> 0 ->
            getMovies_branch a = ByGenre)
      /\ (ToBoolean (genreIdOrCategoryName a)
          && (String.eqb (typeof (genreIdOrCategoryName a)) "string"
              || String.eqb (typeof (genreIdOrCategoryName a)) "number") = false ->
          getMovies_branch a = ByDefault))
  /\ (exists b : Branch,
        getMovies_branch a = b
        /\ (forall b' : Branch, getMovies_branch a = b' -> b' = b)
        /\ getMovies a st = (serialize (branch_target (tmdbApiKey st) a b), st)).
Proof.
  split; [|split].
  - intros s Hs Hne.
    assert (Hb : getMovies_branch a = BySearch).
    { unfold getMovies_branch. now rewrite Hs, nonempty_text_truthy. }
    split; [exact Hb|].
    rewrite getMovies_by_branch, Hb. unfold branch_target. now rewrite Hs.
  - intros Hq. unfold getMovies_branch. rewrite Hq. repeat split.
    + intros c Hc Hne. now rewrite Hc, nonempty_text_truthy.
    + intros n Hn Hne. now rewrite Hn, nonzero_number_truthy.
    + destruct (ToBoolean (genreIdOrCategoryName a)); [|reflexivity].
      simpl. intros [-> ->]%orb_false_iff. reflexivity.
  - exists (getMovies_branch a). repeat split.
    + congruence.
    + apply getMovies_by_branch.
Qed.

Lemma getMovies_precedence_witness :
  JStr "alien" = JStr "alien" /\ "alien" <> "" /\
  getMovies_branch {| genreIdOrCategoryName := JStr "top_rated"; page := JNum 1;
                      searchQuery := JStr "alien" |} = BySearch.
Proof.
  split; [reflexivity|]. split; [discriminate|].
  apply (proj1 (getMovies_precedence
                  {| genreIdOrCategoryName := JStr "top_rated"; page := JNum 1;
                     searchQuery := JStr "alien" |}
                  {| tmdbApiKey := JStr "k" |}) "alien");
    [reflexivity | discriminate].
Defined.

(** C4. With [searchQuery] and [genreIdOrCategoryName] both absent, every
    page value resolves to [/movie/popular] with that page as [page]. *)
Theorem getMovies_default_popular (pg : JsVal) (st : ModuleState) :
  getMovies {| genreIdOrCategoryName := JUndefined; page := pg;
               searchQuery := JUndefined |} st
  = (serialize {| path := "/movie/popular";
                  params := [("page", ToString pg);
                             ("api_key", ToString (tmdbApiKey st))] |}, st)
  /\ getMovies_branch {| genreIdOrCategoryName := JUndefined; page := pg;
                         searchQuery := JUndefined |} = ByDefault.
Proof. split; reflexivity. Qed.

(** C8. With a non-empty category text and no search text the call
    resolves to [/movie/{category}] with the given page; for ["top_rated"]
    and page 2 that is [/movie/top_rated] with [page=2]. *)
Theorem getMovies_category (c : string) (pg sq : JsVal) (st : ModuleState) :
  c <> "" -> ToBoolean sq = false ->
  getMovies {| genreIdOrCategoryName := JStr c; page := pg; searchQuery := sq |} st
  = (serialize {| path := "/movie/" +:+ c;
                  params := [("page", ToString pg);
                             ("api_key", ToString (tmdbApiKey st))] |}, st).
Proof.
  intros Hc Hq. rewrite getMovies_by_branch.
  unfold getMovies_branch. simpl. rewrite Hq.
  destruct c; [congruence | reflexivity].
Qed.

Lemma getMovies_category_witness :
  "top_rated" <> "" /\ ToBoolean JUndefined = false /\
  getMovies {| genreIdOrCategoryName := JStr "top_rated"; page := JNum 2;
               searchQuery := JUndefined |} {| tmdbApiKey := JStr "k" |}
  = ("/movie/top_rated?page=2&api_key=k", {| tmdbApiKey := JStr "k" |}).
Proof.
  split; [discriminate|]. split; [reflexivity|].
  apply (getMovies_category "top_rated" (JNum 2) JUndefined
           {| tmdbApiKey := JStr "k" |}); [discriminate | reflexivity].
Defined.

(** C9. Falsy selectors count as absent: an empty search text never
    reaches the search statement, an empty category text never the
    category statement, the genre number 0 never the genre statement, and
    with both selectors falsy the call returns the popular default, for
    every page. *)
Theorem getMovies_falsy_selectors (pg : JsVal) (st : ModuleState) :
  (forall g : JsVal,
     getMovies_branch {| genreIdOrCategoryName := g; page := pg;
                         searchQuery := JStr "" |} <> BySearch)
  /\ (forall sq : JsVal,
        getMovies_branch {| genreIdOrCategoryName := JStr ""; page := pg;
                            searchQuery := sq |} <> ByCategory)
  /\ (forall sq : JsVal,
        getMovies_branch {| genreIdOrCategoryName := JNum 0; page := pg;
                            searchQuery := sq |} <> ByGenre)
  /\ (forall sq g : JsVal,
        ToBoolean sq = false -> ToBoolean g = false ->
        getMovies_branch {| genreIdOrCategoryName := g; page := pg;
                            searchQuery := sq |} = ByDefault
        /\ getMovies {| genreIdOrCategoryName := g; page := pg;
                        searchQuery := sq |} st
           = (serialize {| path := "/movie/popular";
                           params := [("page", ToString pg);
                                      ("api_key", ToString (tmdbApiKey st))] |},
              st)).
Proof.
  split; [|split; [|split]].
  - intros g. unfold getMovies_branch. simpl.
    destruct (ToBoolean g); simpl;
      [destruct (String.eqb (typeof g) "string");
       [|destruct (String.eqb (typeof g) "number")]|]; discriminate.
  - intros sq. unfold getMovies_branch. simpl.
    destruct (ToBoolean sq); discriminate.
  - intros sq. unfold getMovies_branch. simpl.
    destruct (ToBoolean sq); discriminate.
  - intros sq g Hq Hg. split.
    + unfold getMovies_branch. simpl. now rewrite Hq, Hg.
    + rewrite getMovies_by_branch. unfold getMovies_branch. simpl.
      now rewrite Hq, Hg.
Qed.

Lemma getMovies_falsy_selectors_witness :
  ToBoolean (JStr "") = false /\ ToBoolean (JNum 0) = false /\
  getMovies {| genreIdOrCategoryName := JNum 0; page := JNum 4;
               searchQuery := JStr "" |} {| tmdbApiKey := JStr "k" |}
  = ("/movie/popular?page=4&api_key=k", {| tmdbApiKey := JStr "k" |}).
Proof.
  split; [reflexivity|]. split; [reflexivity|].
  apply (proj2 (proj2 (proj2 (getMovies_falsy_selectors
                                (JNum 4) {| tmdbApiKey := JStr "k" |})))
           (JStr "") (JNum 0)); reflexivity.
Defined.

(** ** The single-template endpoints *)

(** C5. For every movie id, [getMovie] resolves to [/movie/{id}] with
    [append_to_response] set to [videos,credits] (and the credential); for
    the id 550 the path is [/movie/550] and the parameters read back from
    the text include that pair. *)
Theorem getMovie_target (id : JsVal) (st : ModuleState) :
  getMovie id st
  = (serialize {| path := "/movie/" +:+ ToString id;
                  params := [("append_to_response", "videos,credits");
                             ("api_key", ToString (tmdbApiKey st))] |}, st)
  /\ url_path (fst (getMovie (JNum 550) st)) = "/movie/550"
  /\ In ("append_to_response", "videos,credits")
        (query_params (fst (getMovie (JNum 550) st))).
Proof.
  split; [|split].
  - run_callback; flatten_text; reflexivity.
  - reflexivity.
  - run_callback. cbn [fst ToString]. unfold query_params. simpl.
    left. reflexivity.
Qed.

(** C6. For every account id, list name, session id and page, [getList]
    resolves to [/account/{accountId}/{listName}] with [session_id] and
    [page] set to the given values (and the credential); for "123",
    "favorite/movies", "abc" and 1 the text is
    [/account/123/favorite/movies?api_key=...&session_id=abc&page=1]. *)
Theorem getList_target (a : ListArg) (st : ModuleState) :
  getList a st
  = (serialize {| path := "/account/" +:+ ToString (accountId a) +:+ "/"
                          +:+ ToString (listName a);
                  params := [("api_key", ToString (tmdbApiKey st));
                             ("session_id", ToString (sessionId a));
                             ("page", ToString (l_page a))] |}, st)
  /\ fst (getList {| listName := JStr "favorite/movies"; accountId := JStr "123";
                     sessionId := JStr "abc"; l_page := JNum 1 |} st)
     = "/account/123/favorite/movies?api_key=" +:+ ToString (tmdbApiKey st)
       +:+ "&session_id=abc&page=1"
  /\ parse_url (fst (getList {| listName := JStr "favorite/movies";
                                accountId := JStr "123"; sessionId := JStr "abc";
                                l_page := JNum 1 |} {| tmdbApiKey := JStr "k" |}))
     = {| path := "/account/123/favorite/movies";
          params := [("api_key", "k"); ("session_id", "abc"); ("page", "1")] |}.
Proof.
  split; [|split].
  - run_callback; flatten_text; reflexivity.
  - reflexivity.
  - vm_compute. reflexivity.
Qed.

(** ** Purity *)

(** C7. Every endpoint call is a function of its arguments and the
    credential alone and leaves the module state as it found it: any
    sequence of calls returns, call by call, what each call returns on
    its own, and ends in the starting state; in particular the same call
    made twice returns the same text twice. *)
Theorem resolve_deterministic (st : ModuleState) :
  (forall op : Op,
     resolve op st = (serialize (target_of (tmdbApiKey st) op), st))
  /\ (forall ops : list Op,
        run_all ops st = (map (fun op => fst (resolve op st)) ops, st))
  /\ (forall op : Op,
        run_all [op; op] st
        = ([fst (resolve op st); fst (resolve op st)], st)).
Proof.
  split; [|split].
  - intros op. apply resolve_serialize.
  - intros ops. apply run_all_pure.
  - intros op. apply (run_all_pure [op; op]).
Qed.

(** ** The credential *)

(** C3, as stated, fails: with no credential in the environment the module
    loads without an error and [getGenres] embeds the text [undefined]. *)
Lemma missing_credential_not_reported :
  (∅ : Env) !! "REACT_APP_TMDB_KEY" = None
  /\ loadModule ∅ = Ok {| tmdbApiKey := JUndefined |}
  /\ (forall msg : string, loadModule ∅ <> Throw msg)
  /\ fst (getGenres {| tmdbApiKey := JUndefined |})
     = "/genre/movie/list?api_key=undefined".
Proof.
  split; [reflexivity|]. split; [reflexivity|]. split; [discriminate|].
  reflexivity.
Qed.

(** C3, amended. When the environment holds no credential, loading the
    module raises no error, and every endpoint call returns the text of
    its template with [undefined] as the one value of [api_key]. *)
Theorem missing_credential_embedded (env : Env) :
  env !! "REACT_APP_TMDB_KEY" = None ->
  exists st : ModuleState,
    loadModule env = Ok st
    /\ fst (getGenres st) = "/genre/movie/list?api_key=undefined"
    /\ forall op : Op,
         fst (resolve op st) = serialize (target_of JUndefined op)
         /\ param_values "api_key" (params (target_of JUndefined op))
            = ["undefined"].
Proof.
  intros Henv. exists {| tmdbApiKey := JUndefined |}.
  split; [|split].
  - unfold loadModule. now rewrite Henv.
  - reflexivity.
  - intros op. split.
    + now rewrite resolve_serialize.
    + apply (target_api_key JUndefined).
Qed.

Lemma missing_credential_embedded_witness :
  (∅ : Env) !! "REACT_APP_TMDB_KEY" = None
  /\ exists st : ModuleState,
       loadModule ∅ = Ok st
       /\ fst (getGenres st) = "/genre/movie/list?api_key=undefined"
       /\ forall op : Op,
            fst (resolve op st) = serialize (target_of JUndefined op)
            /\ param_values "api_key" (params (target_of JUndefined op))
               = ["undefined"].
Proof.
  split; [reflexivity|].
  apply (missing_credential_embedded ∅). reflexivity.
Defined.

(** C10, as stated, fails: a search text that carries [&api_key=] gives a
    request string with two [api_key] parameters, and one that carries
    [#] gives a request string with none. *)
Lemma api_key_not_always_once :
  fst (getMovies {| genreIdOrCategoryName := JUndefined; page := JNum 1;
                    searchQuery := JStr "a&api_key=b" |} {| tmdbApiKey := JStr "k" |})
  = "/search/movie?query=a&api_key=b&page=1&api_key=k"
  /\ param_values "api_key"
       (query_params
          (fst (getMovies {| genreIdOrCategoryName := JUndefined; page := JNum 1;
                             searchQuery := JStr "a&api_key=b" |}
                          {| tmdbApiKey := JStr "k" |})))
     = ["b"; "k"]
  /\ param_values "api_key"
       (query_params
          (fst (getMovies {| genreIdOrCategoryName := JUndefined; page := JNum 1;
                             searchQuery := JStr "a#b" |}
                          {| tmdbApiKey := JStr "k" |})))
     = [].
Proof. vm_compute. repeat split; reflexivity. Qed.

(** C10, amended. Every template names [api_key] once with the text of
    the credential; and whenever the interpolated texts carry no
    delimiter (no [?] or [#] in the path, no [&] or [#] in a parameter
    value, the credential included), the request string read back has
    [api_key] exactly once, with the text of the credential as value. *)
Theorem api_key_exactly_once (op : Op) (st : ModuleState) :
  well_delimited (target_of (tmdbApiKey st) op) = true ->
  param_values "api_key" (params (target_of (tmdbApiKey st) op))
  = [ToString (tmdbApiKey st)]
  /\ parse_url (fst (resolve op st)) = target_of (tmdbApiKey st) op
  /\ param_values "api_key" (query_params (fst (resolve op st)))
     = [ToString (tmdbApiKey st)].
Proof.
  intros Hwd. rewrite resolve_serialize. cbn [fst].
  split; [apply target_api_key|].
  pose proof (parse_serialize _ Hwd) as Hrt. split; [exact Hrt|].
  change (query_params (serialize (target_of (tmdbApiKey st) op)))
    with (params (parse_url (serialize (target_of (tmdbApiKey st) op)))).
  rewrite Hrt. apply target_api_key.
Qed.

Lemma api_key_exactly_once_witness :
  well_delimited (target_of (JStr "k") (OpGetMovie (JNum 550))) = true
  /\ param_values "api_key"
       (query_params (fst (resolve (OpGetMovie (JNum 550))
                                   {| tmdbApiKey := JStr "k" |})))
     = ["k"].
Proof.
  split; [vm_compute; reflexivity|].
  apply (api_key_exactly_once (OpGetMovie (JNum 550)) {| tmdbApiKey := JStr "k" |}).
  vm_compute. reflexivity.
Defined.

(** * Further properties of the endpoints *)

(** ** Texts of values that are not strings *)

Lemma delimiter_cases (c : ascii) :
  delimiter c = true -> c = "?"%char \/ c = "#"%char \/ c = "&"%char \/ c = "="%char.
Proof.
  unfold delimiter. rewrite !orb_true_iff, !Ascii.eqb_eq. tauto.
Qed.

Lemma digit_not_delimiter (c : ascii) (d : N) :
  delimiter c = true -> Ascii.eqb (pretty_N_char d) c = false.
Proof.
  intros [-> | [-> | [-> | ->]]]%delimiter_cases;
    unfold pretty_N_char; repeat case_match; reflexivity.
Qed.

Lemma has_char_pretty_N_go (c : ascii) (x : N) (s : string) :
  delimiter c = true -> has_char c (pretty_N_go x s) = has_char c s.
Proof.
  intros Hc. revert s. induction (N.lt_wf_0 x) as [x _ IH]. intros s.
  destruct (N.eq_dec x 0%N) as [-> | Hx].
  - now rewrite pretty_N_go_0.
  - rewrite pretty_N_go_step by lia.
    rewrite IH by (apply N.div_lt; lia).
    simpl. now rewrite digit_not_delimiter.
Qed.

Lemma has_char_pretty_Z (c : ascii) (z : Z) :
  delimiter c = true -> has_char c (pretty z) = false.
Proof.
  intros Hc.
  assert (Hpos : forall p : positive, has_char c (pretty p) = false).
  { intros p. unfold pretty, pretty_positive, pretty, pretty_N.
    case_decide; [discriminate|]. now rewrite has_char_pretty_N_go. }
  destruct z as [| p | p]; unfold pretty, pretty_Z.
  - apply delimiter_cases in Hc as [-> | [-> | [-> | ->]]]; reflexivity.
  - apply Hpos.
  - rewrite has_char_app, Hpos.
    apply delimiter_cases in Hc as [-> | [-> | [-> | ->]]]; reflexivity.
Qed.

(** The text of a number, a boolean, [null] or [undefined] holds no
    delimiter. *)
Lemma primitive_text_clean (c : ascii) (v : JsVal) :
  is_text v = false -> delimiter c = true -> has_char c (ToString v) = false.
Proof.
  intros Hv Hc. destruct v as [| | [|] | z | | [|] | s]; try discriminate;
    try (apply delimiter_cases in Hc as [-> | [-> | [-> | ->]]]; reflexivity).
  now apply has_char_pretty_Z.
Qed.

Lemma primitive_safe (v : JsVal) :
  is_text v = false -> safe_in_path v = true /\ safe_in_value v = true.
Proof.
  intros Hv. unfold safe_in_path, safe_in_value, clean_path, clean_value.
  rewrite !(primitive_text_clean _ v Hv) by reflexivity. split; reflexivity.
Qed.

(** ** Reading back what a call with safe inputs returns *)

Ltac split_safe :=
  repeat match goal with
         | H : _ && _ = true |- _ => apply andb_true_iff in H as [? ?]
         | H : negb _ = true |- _ => apply negb_true_iff in H
         end.

Lemma inputs_safe_well_delimited (key : JsVal) (op : Op) :
  inputs_safe op = true -> safe_in_value key = true ->
  well_delimited (target_of key op) = true.
Proof.
  unfold safe_in_value, clean_value. intros Hop Hkey.
  destruct op as [| a | id | a | id | a | a]; cbn [inputs_safe target_of] in *;
    [| destruct (getMovies_branch a) | | | | | ];
    unfold well_delimited, clean_path, clean_name, clean_value,
      safe_in_path, safe_in_value, clean_path, clean_value in *;
    cbn [branch_target path params forallb fst snd] in *;
    split_safe; simpl; rewrite ?has_char_app; simpl;
    repeat match goal with H : has_char _ _ = false |- _ => rewrite H end;
    reflexivity.
Qed.

(** X3. A call whose interpolated inputs are safe where they land (any
    number, boolean, [null] or [undefined]; a string without [?] or [#]
    in a path position, without [&] or [#] in a value position), made with
    a credential without [&] or [#], returns a request string that reads
    back as exactly the path and the parameters of its template. *)
Theorem resolve_reads_back (op : Op) (st : ModuleState) :
  inputs_safe op = true -> safe_in_value (tmdbApiKey st) = true ->
  parse_url (fst (resolve op st)) = target_of (tmdbApiKey st) op.
Proof.
  intros Hop Hkey. rewrite resolve_serialize. cbn [fst].
  apply parse_serialize. now apply inputs_safe_well_delimited.
Qed.

Lemma resolve_reads_back_witness :
  inputs_safe (OpGetRecommendations {| movieId := JNum 550; list_ := JStr "similar" |})
  = true
  /\ safe_in_value (JStr "k") = true
  /\ parse_url (fst (resolve (OpGetRecommendations
                               {| movieId := JNum 550; list_ := JStr "similar" |})
                             {| tmdbApiKey := JStr "k" |}))
     = {| path := "/movie/550/similar"; params := [("api_key", "k")] |}.
Proof.
  split; [vm_compute; reflexivity|]. split; [reflexivity|].
  apply (resolve_reads_back
           (OpGetRecommendations {| movieId := JNum 550; list_ := JStr "similar" |})
           {| tmdbApiKey := JStr "k" |}); vm_compute; reflexivity.
Defined.

(** X4. With safe-integer ids and pages no input can cut the request
    string: for all integers that a number holds exactly,
    [getMoviesByActorId], [getActorDetails] and [getMovie] return strings
    that read back as their path and parameters (the path of
    [getActorDetails] being [person/{id}], without a leading slash), as
    soon as the credential holds no [&] or [#]. *)
Theorem integer_ids_read_back (z p : Z) (st : ModuleState) :
  safe_integer z = true -> safe_integer p = true ->
  safe_in_value (tmdbApiKey st) = true ->
  parse_url (fst (getMoviesByActorId {| am_id := JNum z; am_page := JNum p |} st))
  = {| path := "/discover/movie";
       params := [("with_cast", pretty z); ("page", pretty p);
                  ("api_key", ToString (tmdbApiKey st))] |}
  /\ parse_url (fst (getActorDetails (JNum z) st))
     = {| path := "person/" +:+ pretty z;
          params := [("api_key", ToString (tmdbApiKey st))] |}
  /\ parse_url (fst (getMovie (JNum z) st))
     = {| path := "/movie/" +:+ pretty z;
          params := [("append_to_response", "videos,credits");
                     ("api_key", ToString (tmdbApiKey st))] |}.
Proof.
  intros _ _ Hkey.
  destruct (primitive_safe (JNum z) eq_refl) as [Hzp Hzv].
  destruct (primitive_safe (JNum p) eq_refl) as [_ Hpv].
  split; [|split].
  - change (getMoviesByActorId {| am_id := JNum z; am_page := JNum p |})
      with (resolve (OpGetMoviesByActorId {| am_id := JNum z; am_page := JNum p |})).
    rewrite resolve_serialize. cbn [fst]. apply parse_serialize.
    apply (inputs_safe_well_delimited (tmdbApiKey st)
             (OpGetMoviesByActorId {| am_id := JNum z; am_page := JNum p |}));
      [|exact Hkey].
    cbn [inputs_safe am_id am_page]. now rewrite Hzv, Hpv.
  - change (getActorDetails (JNum z)) with (resolve (OpGetActorDetails (JNum z))).
    rewrite resolve_serialize. cbn [fst]. apply parse_serialize.
    now apply (inputs_safe_well_delimited (tmdbApiKey st)
                 (OpGetActorDetails (JNum z))).
  - change (getMovie (JNum z)) with (resolve (OpGetMovie (JNum z))).
    rewrite resolve_serialize. cbn [fst]. apply parse_serialize.
    now apply (inputs_safe_well_delimited (tmdbApiKey st) (OpGetMovie (JNum z))).
Qed.

Lemma integer_ids_read_back_witness :
  safe_integer 287 = true /\ safe_integer 3 = true
  /\ safe_in_value (JStr "k") = true
  /\ parse_url (fst (getMoviesByActorId {| am_id := JNum 287; am_page := JNum 3 |}
                                        {| tmdbApiKey := JStr "k" |}))
     = {| path := "/discover/movie";
          params := [("with_cast", "287"); ("page", "3"); ("api_key", "k")] |}.
Proof.
  split; [reflexivity|]. split; [reflexivity|]. split; [reflexivity|].
  apply (proj1 (integer_ids_read_back 287 3 {| tmdbApiKey := JStr "k" |}
                  eq_refl eq_refl eq_refl)).
Defined.

(** X5. Two calls with safe inputs, of any two endpoints, that return the
    same request string have the same path and the same parameters. *)
Theorem equal_urls_equal_targets (op1 op2 : Op) (st : ModuleState) :
  inputs_safe op1 = true -> inputs_safe op2 = true ->
  safe_in_value (tmdbApiKey st) = true ->
  fst (resolve op1 st) = fst (resolve op2 st) ->
  target_of (tmdbApiKey st) op1 = target_of (tmdbApiKey st) op2.
Proof.
  intros H1 H2 Hkey Heq. rewrite !resolve_serialize in Heq. cbn [fst] in Heq.
  rewrite <- (parse_serialize (target_of (tmdbApiKey st) op1)),
          <- (parse_serialize (target_of (tmdbApiKey st) op2))
    by now apply inputs_safe_well_delimited.
  now rewrite Heq.
Qed.

Lemma equal_urls_equal_targets_witness :
  inputs_safe (OpGetMovies {| genreIdOrCategoryName := JStr "popular";
                              page := JNum 1; searchQuery := JUndefined |}) = true
  /\ inputs_safe (OpGetMovies {| genreIdOrCategoryName := JUndefined;
                                 page := JNum 1; searchQuery := JStr "" |}) = true
  /\ safe_in_value (JStr "k") = true
  /\ target_of (JStr "k")
       (OpGetMovies {| genreIdOrCategoryName := JStr "popular";
                       page := JNum 1; searchQuery := JUndefined |})
     = target_of (JStr "k")
         (OpGetMovies {| genreIdOrCategoryName := JUndefined;
                         page := JNum 1; searchQuery := JStr "" |}).
Proof.
  split; [vm_compute; reflexivity|]. split; [vm_compute; reflexivity|].
  split; [reflexivity|].
  apply (equal_urls_equal_targets
           (OpGetMovies {| genreIdOrCategoryName := JStr "popular";
                           page := JNum 1; searchQuery := JUndefined |})
           (OpGetMovies {| genreIdOrCategoryName := JUndefined;
                           page := JNum 1; searchQuery := JStr "" |})
           {| tmdbApiKey := JStr "k" |}); vm_compute; reflexivity.
Defined.

(** X6. [getMovies] never checks or replaces the page: in every branch
    the request string carries exactly one [page] parameter, whose value
    is the text of the page handed in ([undefined] when it was left out),
    provided the inputs are safe. *)
Theorem getMovies_page_passthrough (a : MoviesArg) (st : ModuleState) :
  inputs_safe (OpGetMovies a) = true ->
  safe_in_value (tmdbApiKey st) = true ->
  param_values "page" (query_params (fst (getMovies a st))) = [ToString (page a)].
Proof.
  intros Hop Hkey.
  change (query_params (fst (getMovies a st)))
    with (params (parse_url (fst (resolve (OpGetMovies a) st)))).
  rewrite resolve_serialize. cbn [fst].
  rewrite parse_serialize by now apply inputs_safe_well_delimited.
  cbn [target_of]. destruct (getMovies_branch a); reflexivity.
Qed.

Lemma getMovies_page_passthrough_witness :
  inputs_safe (OpGetMovies {| genreIdOrCategoryName := JNum 28;
                              page := JUndefined; searchQuery := JUndefined |}) = true
  /\ safe_in_value (JStr "k") = true
  /\ param_values "page"
       (query_params
          (fst (getMovies {| genreIdOrCategoryName := JNum 28;
                             page := JUndefined; searchQuery := JUndefined |}
                          {| tmdbApiKey := JStr "k" |})))
     = ["undefined"].
Proof.
  split; [vm_compute; reflexivity|]. split; [reflexivity|].
  apply (getMovies_page_passthrough
           {| genreIdOrCategoryName := JNum 28; page := JUndefined;
              searchQuery := JUndefined |} {| tmdbApiKey := JStr "k" |});
    vm_compute; reflexivity.
Defined.

(** ** Which return statement of [getMovies] a call reaches *)

(** X1. The branches of [getMovies], characterised by the values handed
    in: the search statement is reached exactly for a truthy search
    value; otherwise the category statement exactly for a non-empty
    string, the genre statement exactly for a non-zero number or an
    infinity, and the default for everything else (a falsy value, [NaN]
    included, or the boolean [true]). *)
Theorem getMovies_branch_iff (a : MoviesArg) :
  (getMovies_branch a = BySearch <-> ToBoolean (searchQuery a) = true)
  /\ (getMovies_branch a = ByCategory <->
      ToBoolean (searchQuery a) = false
      /\ exists c : string, genreIdOrCategoryName a = JStr c /\ c <> "")
  /\ (getMovies_branch a = ByGenre <->
      ToBoolean (searchQuery a) = false
      /\ ((exists n : Z, genreIdOrCategoryName a = JNum n /\ n <> 0)
          \/ exists b : bool, genreIdOrCategoryName a = JInfinity b))
  /\ (getMovies_branch a = ByDefault <->
      ToBoolean (searchQuery a) = false
      /\ (ToBoolean (genreIdOrCategoryName a) = false
          \/ genreIdOrCategoryName a = JBool true)).
Proof.
  destruct a as [g pg sq]. unfold getMovies_branch. cbn [searchQuery genreIdOrCategoryName].
  destruct (ToBoolean sq).
  { repeat split; try discriminate; intros [? _]; discriminate. }
  destruct g as [| | [|] | z | | b | [|x c]]; cbn [ToBoolean typeof];
    try (destruct (Z.eqb_spec z 0) as [-> | Hz]); simpl;
    repeat split; try discriminate; eauto;
    try (intros [_ [[? [? ?]] | [? ?]]]; congruence);
    try (intros [_ [? | ?]]; congruence);
    try (intros [_ [? [? ?]]]; congruence).
Qed.

Lemma getMovies_branch_iff_witness :
  ToBoolean (JStr "") = false
  /\ getMovies_branch {| genreIdOrCategoryName := JInfinity false; page := JNum 1;
                         searchQuery := JStr "" |} = ByGenre.
Proof.
  split; [reflexivity|].
  apply (proj2 (proj1 (proj2 (proj2 (getMovies_branch_iff
                  {| genreIdOrCategoryName := JInfinity false; page := JNum 1;
                     searchQuery := JStr "" |}))))).
  split; [reflexivity|]. right. exists false. reflexivity.
Defined.

(** X9. The default of [getMovies] is the category [popular]: without a
    search value, the category text ["popular"] and any falsy selector
    give the same request string, for every page. *)
Theorem default_is_category_popular (pg sq sq' g' : JsVal) (st : ModuleState) :
  ToBoolean sq = false -> ToBoolean sq' = false -> ToBoolean g' = false ->
  getMovies {| genreIdOrCategoryName := JStr "popular"; page := pg;
               searchQuery := sq |} st
  = getMovies {| genreIdOrCategoryName := g'; page := pg; searchQuery := sq' |} st.
Proof.
  intros Hq Hq' Hg. unfold getMovies.
  cbn [searchQuery genreIdOrCategoryName page]. rewrite Hq, Hq', Hg. reflexivity.
Qed.

Lemma default_is_category_popular_witness :
  ToBoolean JUndefined = false /\ ToBoolean (JStr "") = false
  /\ ToBoolean (JNum 0) = false
  /\ getMovies {| genreIdOrCategoryName := JStr "popular"; page := JNum 2;
                  searchQuery := JUndefined |} {| tmdbApiKey := JStr "k" |}
     = getMovies {| genreIdOrCategoryName := JNum 0; page := JNum 2;
                    searchQuery := JStr "" |} {| tmdbApiKey := JStr "k" |}.
Proof.
  repeat (split; [reflexivity|]).
  apply (default_is_category_popular (JNum 2) JUndefined (JStr "") (JNum 0)
           {| tmdbApiKey := JStr "k" |}); reflexivity.
Defined.

(** X10. [getMovies] looks at one selector only: with a truthy search
    value the result does not depend on [genreIdOrCategoryName], and
    without one it does not depend on which falsy search value was
    handed in (absent, [null], empty string, 0, ...). *)
Theorem getMovies_ignores_unused_selector (pg : JsVal) (st : ModuleState) :
  (forall sq g1 g2 : JsVal,
     ToBoolean sq = true ->
     getMovies {| genreIdOrCategoryName := g1; page := pg; searchQuery := sq |} st
     = getMovies {| genreIdOrCategoryName := g2; page := pg; searchQuery := sq |} st)
  /\ (forall sq1 sq2 g : JsVal,
        ToBoolean sq1 = false -> ToBoolean sq2 = false ->
        getMovies {| genreIdOrCategoryName := g; page := pg; searchQuery := sq1 |} st
        = getMovies {| genreIdOrCategoryName := g; page := pg; searchQuery := sq2 |} st).
Proof.
  split.
  - intros sq g1 g2 Hq. unfold getMovies. cbn [searchQuery]. now rewrite Hq.
  - intros sq1 sq2 g H1 H2. unfold getMovies.
    cbn [searchQuery genreIdOrCategoryName page]. now rewrite H1, H2.
Qed.

Lemma getMovies_ignores_unused_selector_witness :
  ToBoolean (JStr "alien") = true
  /\ getMovies {| genreIdOrCategoryName := JNum 28; page := JNum 1;
                  searchQuery := JStr "alien" |} {| tmdbApiKey := JStr "k" |}
     = getMovies {| genreIdOrCategoryName := JStr "top_rated"; page := JNum 1;
                    searchQuery := JStr "alien" |} {| tmdbApiKey := JStr "k" |}.
Proof.
  split; [reflexivity|].
  apply (proj1 (getMovies_ignores_unused_selector (JNum 1) {| tmdbApiKey := JStr "k" |})
           (JStr "alien") (JNum 28) (JStr "top_rated")).
  reflexivity.
Defined.

(** ** Shape of the request strings *)

(** X2. Which request strings start with a slash: all of them, except
    those of [getActorDetails] and of the genre statement of [getMovies],
    whatever the inputs and the credential. *)
Theorem resolve_leading_slash (op : Op) (st : ModuleState) :
  starts_with_slash (fst (resolve op st))
  = match op with
    | OpGetActorDetails _ => false
    | OpGetMovies a =>
        match getMovies_branch a with ByGenre => false | _ => true end
    | _ => true
    end.
Proof.
  rewrite resolve_serialize. cbn [fst].
  destruct op as [| a | id | a | id | a | a]; try reflexivity.
  cbn [target_of]. destruct (getMovies_branch a); reflexivity.
Qed.

Lemma append_length (a b : string) :
  String.length (a +:+ b) = (String.length a + String.length b)%nat.
Proof. induction a as [|x a IH]; simpl; [reflexivity | now rewrite IH]. Qed.

Lemma append_inv_tail (a b s : string) : a +:+ s = b +:+ s -> a = b.
Proof.
  revert b. induction a as [|x a IH]; intros [|y b] H; simpl in H.
  - reflexivity.
  - apply (f_equal String.length) in H. simpl in H.
    rewrite append_length in H. lia.
  - apply (f_equal String.length) in H. simpl in H.
    rewrite append_length in H. lia.
  - injection H as -> H. f_equal. now apply IH.
Qed.

(** X11. The endpoints with one id in the path never map two ids with
    different texts to one request string: equal results of [getMovie]
    (or of [getActorDetails]) mean equal id texts, with no condition on
    the id or on the credential, and for ids that are safe integers
    equal integers. *)
Theorem single_id_urls_injective (st : ModuleState) :
  (forall id1 id2 : JsVal,
     getMovie id1 st = getMovie id2 st -> ToString id1 = ToString id2)
  /\ (forall id1 id2 : JsVal,
        getActorDetails id1 st = getActorDetails id2 st ->
        ToString id1 = ToString id2)
  /\ (forall z1 z2 : Z,
        safe_integer z1 = true -> safe_integer z2 = true ->
        getMovie (JNum z1) st = getMovie (JNum z2) st -> z1 = z2).
Proof.
  assert (Hm : forall id1 id2 : JsVal,
             getMovie id1 st = getMovie id2 st -> ToString id1 = ToString id2).
  { intros id1 id2. run_callback. intros [= H].
    now apply append_inv_tail in H. }
  split; [exact Hm|]. split.
  - intros id1 id2. run_callback. intros [= H].
    now apply append_inv_tail in H.
  - intros z1 z2 _ _ H. apply Hm in H. cbn [ToString] in H.
    now apply pretty_Z_inj in H.
Qed.

Lemma single_id_urls_injective_witness :
  getMovie (JNum 550) {| tmdbApiKey := JStr "k" |}
  = getMovie (JStr "550") {| tmdbApiKey := JStr "k" |}
  /\ ToString (JNum 550) = ToString (JStr "550").
Proof.
  split; [vm_compute; reflexivity|].
  apply (proj1 (single_id_urls_injective {| tmdbApiKey := JStr "k" |})
           (JNum 550) (JStr "550")).
  vm_compute. reflexivity.
Defined.

(** ** Loading the module *)

(** X7. Loading the module reads [REACT_APP_TMDB_KEY] and nothing else:
    setting or removing any other variable of the environment leaves the
    loaded state the same; the text of the variable is stored as it is
    (the empty text included), and without the variable the credential is
    [undefined]. *)
Theorem loadModule_only_reads_credential (env : Env) (k v : string) :
  k <> "REACT_APP_TMDB_KEY" ->
  loadModule (<[k := v]> env) = loadModule env
  /\ loadModule (delete k env) = loadModule env
  /\ loadModule (<["REACT_APP_TMDB_KEY" := v]> env) = Ok {| tmdbApiKey := JStr v |}
  /\ loadModule (delete "REACT_APP_TMDB_KEY" env) = Ok {| tmdbApiKey := JUndefined |}.
Proof.
  intros Hk. unfold loadModule.
  rewrite lookup_insert_ne, lookup_delete_ne, lookup_insert_eq, lookup_delete_eq
    by exact Hk.
  repeat split.
Qed.

Lemma loadModule_only_reads_credential_witness :
  "NODE_ENV" <> "REACT_APP_TMDB_KEY"
  /\ loadModule (<["NODE_ENV" := "production"]> {["REACT_APP_TMDB_KEY" := "abc"]})
     = loadModule {["REACT_APP_TMDB_KEY" := "abc"]}.
Proof.
  split; [discriminate|].
  apply (loadModule_only_reads_credential
           {["REACT_APP_TMDB_KEY" := "abc"]} "NODE_ENV" "production").
  discriminate.
Defined.

(** X8. From the environment to the request: when the environment holds
    a credential text without [&] or [#] (the empty text included), the
    module loads, and every call with safe inputs returns a request
    string whose one [api_key] parameter is that very text. *)
Theorem loaded_credential_reaches_url (env : Env) (s : string) (op : Op) :
  env !! "REACT_APP_TMDB_KEY" = Some s ->
  clean_value s = true ->
  inputs_safe op = true ->
  exists st : ModuleState,
    loadModule env = Ok st
    /\ param_values "api_key" (query_params (fst (resolve op st))) = [s].
Proof.
  intros Henv Hs Hop. exists {| tmdbApiKey := JStr s |}. split.
  - unfold loadModule. now rewrite Henv.
  - change (query_params (fst (resolve op {| tmdbApiKey := JStr s |})))
      with (params (parse_url (fst (resolve op {| tmdbApiKey := JStr s |})))).
    rewrite resolve_serialize. cbn [fst tmdbApiKey].
    rewrite parse_serialize by now apply inputs_safe_well_delimited.
    apply (target_api_key (JStr s)).
Qed.

Lemma loaded_credential_reaches_url_witness :
  ({["REACT_APP_TMDB_KEY" := "abc123"]} : Env) !! "REACT_APP_TMDB_KEY"
  = Some "abc123"
  /\ clean_value "abc123" = true
  /\ inputs_safe (OpGetList {| listName := JStr "favorite/movies";
                               accountId := JNum 123; sessionId := JStr "s1";
                               l_page := JNum 2 |}) = true
  /\ exists st : ModuleState,
       loadModule {["REACT_APP_TMDB_KEY" := "abc123"]} = Ok st
       /\ param_values "api_key"
            (query_params
               (fst (resolve (OpGetList {| listName := JStr "favorite/movies";
                                           accountId := JNum 123;
                                           sessionId := JStr "s1";
                                           l_page := JNum 2 |}) st)))
          = ["abc123"].
Proof.
  split; [reflexivity|]. split; [reflexivity|].
  split; [vm_compute; reflexivity|].
  apply (loaded_credential_reaches_url {["REACT_APP_TMDB_KEY" := "abc123"]} "abc123"
           (OpGetList {| listName := JStr "favorite/movies"; accountId := JNum 123;
                         sessionId := JStr "s1"; l_page := JNum 2 |}));
    [reflexivity | reflexivity | vm_compute; reflexivity].
Defined.

(** ** The request a genre call makes *)

Lemma digit_not_slash (d : N) : Ascii.eqb (pretty_N_char d) "/" = false.
Proof. unfold pretty_N_char; repeat case_match; reflexivity. Qed.

Lemma slash_pretty_N_go (x : N) (s : string) :
  has_char "/" (pretty_N_go x s) = has_char "/" s.
Proof.
  revert s. induction (N.lt_wf_0 x) as [x _ IH]. intros s.
  destruct (N.eq_dec x 0%N) as [-> | Hx].
  - now rewrite pretty_N_go_0.
  - rewrite pretty_N_go_step by lia.
    rewrite IH by (apply N.div_lt; lia).
    simpl. now rewrite digit_not_slash.
Qed.

(** The text of a number holds no slash. *)
Lemma number_text_no_slash (g : JsVal) :
  typeof g = "number" -> has_char "/" (ToString g) = false.
Proof.
  assert (Hpos : forall p : positive, has_char "/" (pretty p) = false).
  { intros p. unfold pretty, pretty_positive, pretty, pretty_N.
    case_decide; [discriminate|]. now rewrite slash_pretty_N_go. }
  destruct g as [| | [|] | z | | [|] | s]; try discriminate; intros _;
    try reflexivity.
  destruct z as [| p | p]; cbn [ToString]; unfold pretty, pretty_Z.
  - reflexivity.
  - apply Hpos.
  - rewrite has_char_app, Hpos. reflexivity.
Qed.

Lemma starts_double_slash_free (x : string) :
  has_char "/" x = false -> starts_with "//" x = false.
Proof.
  destruct x as [|d x]; [reflexivity|].
  intros Hx. simpl in Hx. apply orb_false_iff in Hx as [Hd _].
  rewrite Ascii.eqb_sym in Hd.
  change (starts_with "//" (String d x))
    with (Ascii.eqb "/" d && starts_with "/" x).
  now rewrite Hd.
Qed.

Lemma starts_double_slash_app (x rest : string) :
  has_char "/" x = false -> starts_with "//" rest = false ->
  starts_with "//" (x +:+ rest) = false.
Proof.
  destruct x as [|d x]; [intros _ H; exact H|].
  intros Hx _. simpl in Hx. apply orb_false_iff in Hx as [Hd _].
  rewrite Ascii.eqb_sym in Hd.
  change (starts_with "//" (String d x +:+ rest))
    with (Ascii.eqb "/" d && starts_with "/" (x +:+ rest)).
  now rewrite Hd.
Qed.

Lemma contains_scheme_app (x rest : string) :
  has_char "/" x = false -> starts_with "//" rest = false ->
  contains_sub "://" (x +:+ rest) = contains_sub "://" rest.
Proof.
  intros Hx Hrest. induction x as [|c x IH]; [reflexivity|].
  simpl in Hx. apply orb_false_iff in Hx as [Hc Hx].
  change (contains_sub "://" (String c x +:+ rest))
    with (Ascii.eqb ":" c && starts_with "//" (x +:+ rest)
          || contains_sub "://" (x +:+ rest)).
  now rewrite (IH Hx), starts_double_slash_app, andb_false_r.
Qed.

Lemma contains_scheme_slash_free (x : string) :
  has_char "/" x = false -> contains_sub "://" x = false.
Proof.
  induction x as [|c x IH]; [reflexivity|].
  intros Hx. simpl in Hx. apply orb_false_iff in Hx as [Hc Hx].
  change (contains_sub "://" (String c x))
    with (Ascii.eqb ":" c && starts_with "//" x || contains_sub "://" x).
  now rewrite (IH Hx), starts_double_slash_free, andb_false_r.
Qed.

(** C2. With a numeric genre identifier as selector and no search value,
    the call returns [discover/movie?with_genres={id}&page={page}&...],
    and the request made for it under the base URL has path
    [/discover/movie] with [with_genres] set to the identifier and [page]
    to the given page (and the credential); for 28 and 1 that is
    [.../3/discover/movie?with_genres=28&page=1&api_key=...].  The page
    and the credential are taken to hold no slash. *)
Theorem getMovies_genre_request (g pg sq : JsVal) (st : ModuleState) :
  typeof g = "number" -> ToBoolean g = true -> ToBoolean sq = false ->
  has_char "/" (ToString pg) = false ->
  has_char "/" (ToString (tmdbApiKey st)) = false ->
  getMovies {| genreIdOrCategoryName := g; page := pg; searchQuery := sq |} st
  = ("discover/movie?with_genres=" +:+ ToString g +:+ "&page=" +:+ ToString pg
       +:+ "&api_key=" +:+ ToString (tmdbApiKey st), st)
  /\ joinUrls baseUrl
       (fst (getMovies {| genreIdOrCategoryName := g; page := pg;
                          searchQuery := sq |} st))
     = baseUrl
       +:+ serialize {| path := "/discover/movie";
                        params := [("with_genres", ToString g);
                                   ("page", ToString pg);
                                   ("api_key", ToString (tmdbApiKey st))] |}.
Proof.
  intros Hty Hg Hq Hpg Hkey.
  assert (Hurl : getMovies {| genreIdOrCategoryName := g; page := pg;
                              searchQuery := sq |} st
                 = ("discover/movie?with_genres=" +:+ ToString g +:+ "&page="
                      +:+ ToString pg +:+ "&api_key=" +:+ ToString (tmdbApiKey st),
                    st)).
  { unfold getMovies. cbn [searchQuery genreIdOrCategoryName page].
    rewrite Hq, Hg, Hty. reflexivity. }
  split; [exact Hurl|]. rewrite Hurl. cbn [fst].
  assert (Habs : isAbsoluteUrl
                   ("discover/movie?with_genres=" +:+ ToString g +:+ "&page="
                      +:+ ToString pg +:+ "&api_key=" +:+ ToString (tmdbApiKey st))
                 = false).
  { unfold isAbsoluteUrl. simpl.
    rewrite contains_scheme_app
      by (try reflexivity; now apply number_text_no_slash).
    simpl. rewrite contains_scheme_app by (try reflexivity; exact Hpg).
    simpl. now apply contains_scheme_slash_free. }
  unfold joinUrls. rewrite Habs. reflexivity.
Qed.

Lemma getMovies_genre_request_witness :
  typeof (JNum 28) = "number" /\ ToBoolean (JNum 28) = true
  /\ ToBoolean JUndefined = false
  /\ has_char "/" (ToString (JNum 1)) = false
  /\ has_char "/" (ToString (JStr "k")) = false
  /\ joinUrls baseUrl
       (fst (getMovies {| genreIdOrCategoryName := JNum 28; page := JNum 1;
                          searchQuery := JUndefined |} {| tmdbApiKey := JStr "k" |}))
     = "https://api.themoviedb.org/3/discover/movie?with_genres=28&page=1&api_key=k".
Proof.
  repeat (split; [reflexivity|]).
  apply (proj2 (getMovies_genre_request (JNum 28) (JNum 1) JUndefined
                  {| tmdbApiKey := JStr "k" |}
                  eq_refl eq_refl eq_refl eq_refl eq_refl)).
Defined.
